(** * WorkThread: the base class of the solver's background work threads

    A shallow embedding of [WorkThread.py].  The class wraps one
    [threading.Thread] and three [threading.Event] objects; the UI thread
    drives it through its methods while the thread runs the work body.

    The file is organised as follows:
    - [Threading]: the part of Python's [threading] library the class calls
      ([Event] and [Thread]), as the library documents it;
    - [Abc]: class creation and instantiation in the presence of
      [abc.abstractmethod];
    - the class itself, method by method, and the transition system made
      of the calls of the UI thread and of the steps of the work thread;
    - the pause point of a concrete work body, which the class leaves to
      its subclasses;
    - the properties, and their instances on sample runs. *)

From Stdlib Require Import Bool List String Arith Lia.
Import ListNotations.

Set Implicit Arguments.

(** ** Exceptions and the result of a call *)

Inductive Exn : Type :=
| RuntimeError (msg : string)
| TypeError (msg : string).

(** A Python call either raises or returns a value. *)
Definition Result (A : Type) : Type := (Exn + A)%type.

Definition raised {A} (r : Result A) : bool :=
  match r with inl _ => true | inr _ => false end.

(** ** threading *)

Module Threading.

(** [threading.Event]: one internal flag, initially false. *)
Record Event : Type := mkEvent { flag : bool }.

Definition Event_new : Event := mkEvent false.
Definition set (e : Event) : Event := mkEvent true.
Definition clear (e : Event) : Event := mkEvent false.
Definition is_set (e : Event) : bool := flag e.

(** A thread object is created in the initial state, is started at most
    once, and stops when its [run] method terminates. *)
Inductive ThreadState : Type := Initial | Started | Stopped.

(** [threading.Thread(target=..., args=..., daemon=...)].  The target is
    kept as the name of the bound method; it is looked up in the class of
    the instance when the thread runs. *)
Record Thread : Type := mkThread {
  target : string;
  args : list unit;
  daemon : bool;
  state : ThreadState
}.

Definition Thread_new (tgt : string) (a : list unit) (d : bool) : Thread :=
  mkThread tgt a d Initial.

Definition with_state (t : Thread) (s : ThreadState) : Thread :=
  mkThread (target t) (args t) (daemon t) s.

(** [Thread.start()]: "It must be called at most once per thread object
    ... will raise a RuntimeError if called more than once". *)
Definition start (t : Thread) : Result unit * Thread :=
  match state t with
  | Initial => (inr tt, with_state t Started)
  | Started | Stopped =>
      (inl (RuntimeError "threads can only be started once"), t)
  end.

(** [Thread.is_alive()]: true from just before [run] starts until just
    after it terminates. *)
Definition is_alive (t : Thread) : bool :=
  match state t with
  | Started => true
  | Initial | Stopped => false
  end.

(** The thread's [run] has terminated: its target returned or raised. *)
Definition finish (t : Thread) : Thread := with_state t Stopped.

(** At interpreter shutdown Python waits for the threads that are alive and
    not daemonic. *)
Definition blocks_exit (t : Thread) : bool := is_alive t && negb (daemon t).

End Threading.

(** ** abc *)

Module Abc.

Inductive Metaclass : Type := type_meta | ABCMeta.

(** A function defined in a class body.  [abc.abstractmethod] only sets
    the attribute [__isabstractmethod__] of the function it decorates. *)
Record Function : Type := mkFunction {
  name : string;
  isabstractmethod : bool
}.

(** One [class] statement: the name, the [metaclass=] keyword when there
    is one, and the functions of the class body. *)
Record ClassBody : Type := mkClassBody {
  cname : string;
  declared_meta : option Metaclass;
  namespace : list Function
}.

(** A class is given by its method resolution order, itself first (single
    inheritance; [object] is left out, it defines none of the names the
    class uses). *)
Definition Class : Type := list ClassBody.

Definition declares_abc (b : ClassBody) : bool :=
  match declared_meta b with
  | Some ABCMeta => true
  | Some type_meta | None => false
  end.

(** The metaclass of a class is the most derived of the declared one and
    those of its bases; [ABCMeta] derives from [type]. *)
Definition metaclass (c : Class) : Metaclass :=
  if existsb declares_abc c then ABCMeta else type_meta.

Definition find (n : string) (ns : list Function) : option Function :=
  List.find (fun f => String.eqb (name f) n) ns.

(** Attribute lookup along the MRO: the first class that defines the name,
    with the function found there. *)
Fixpoint lookup (n : string) (c : Class) : option (string * Function) :=
  match c with
  | [] => None
  | b :: bases =>
      match find n (namespace b) with
      | Some f => Some (cname b, f)
      | None => lookup n bases
      end
  end.

Definition still_abstract (c : Class) (n : string) : bool :=
  match lookup n c with
  | Some (_, f) => isabstractmethod f
  | None => false
  end.

(** [__abstractmethods__], as [ABCMeta.__new__] computes it: the abstract
    functions of the class body, and the names of the bases'
    [__abstractmethods__] that are still abstract in the new class.  A
    class created by [type] has no such attribute. *)
Fixpoint abstractmethods (c : Class) : list string :=
  match c with
  | [] => []
  | b :: bases =>
      match metaclass c with
      | type_meta => []
      | ABCMeta =>
          map name (filter isabstractmethod (namespace b))
          ++ filter (still_abstract c) (abstractmethods bases)
      end
  end.

(** [object.__new__] refuses a class whose [__abstractmethods__] is not
    empty. *)
Definition new (c : Class) : Result unit :=
  match abstractmethods c with
  | [] => inr tt
  | _ :: _ => inl (TypeError "Can't instantiate abstract class")
  end.

End Abc.

(** ** The class WorkThread *)

(** [class WorkThread():] with the functions of its body, in the order of
    the source.  No metaclass is declared; only [codeToRunInThread] is
    decorated with [@abc.abstractmethod]. *)
Definition WorkThread_body : Abc.ClassBody :=
  Abc.mkClassBody "WorkThread" None
    [ Abc.mkFunction "codeToRunInThread" true;
      Abc.mkFunction "__init__" false;
      Abc.mkFunction "cancelWorkThread" false;
      Abc.mkFunction "start" false;
      Abc.mkFunction "isAlive" false;
      Abc.mkFunction "supportsCancelRequest" false;
      Abc.mkFunction "timerHandler" false ].

Definition WorkThread_class : Abc.Class := [WorkThread_body].

(** [class name(WorkThread):] with the functions [ns] in its body. *)
Definition subclass (name : string) (ns : list Abc.Function) : Abc.Class :=
  Abc.mkClassBody name None ns :: WorkThread_class.

(** The values the methods of the class return. *)
Inductive Value : Type :=
| PyNone
| PyBool (b : bool).

Section Instance.

(** The solver, the puzzle board and the parent window are objects of the
    callers; the class only stores or ignores the references. *)
Variables Solver PuzzleBoard ParentWindow : Type.

(** The attributes [__init__] sets on [self]. *)
Record WorkThread : Type := mkWorkThread {
  solver : Solver;
  pb : PuzzleBoard;
  __threadHandle : Threading.Thread;
  showResultsEvent : Threading.Event;
  resumeEvent : Threading.Event;
  cancelEvent : Threading.Event
}.

Definition set_threadHandle (self : WorkThread) (t : Threading.Thread) : WorkThread :=
  mkWorkThread (solver self) (pb self) t
    (showResultsEvent self) (resumeEvent self) (cancelEvent self).

Definition set_showResultsEvent (self : WorkThread) (e : Threading.Event) : WorkThread :=
  mkWorkThread (solver self) (pb self) (__threadHandle self)
    e (resumeEvent self) (cancelEvent self).

Definition set_resumeEvent (self : WorkThread) (e : Threading.Event) : WorkThread :=
  mkWorkThread (solver self) (pb self) (__threadHandle self)
    (showResultsEvent self) e (cancelEvent self).

Definition set_cancelEvent (self : WorkThread) (e : Threading.Event) : WorkThread :=
  mkWorkThread (solver self) (pb self) (__threadHandle self)
    (showResultsEvent self) (resumeEvent self) e.

(** A method is a computation on [self] that returns or raises; an
    exception does not undo what the method did before. *)
Definition Method (A : Type) : Type := WorkThread -> Result A * WorkThread.

Definition ret {A} (a : A) : Method A := fun self => (inr a, self).

Definition bind {A B} (m : Method A) (k : A -> Method B) : Method B :=
  fun self =>
    match m self with
    | (inl e, self') => (inl e, self')
    | (inr a, self') => k a self'
    end.

(** A call on the thread handle, with the handle written back. *)
Definition on_threadHandle {A}
  (f : Threading.Thread -> Result A * Threading.Thread) : Method A :=
  fun self =>
    let (r, t) := f (__threadHandle self) in (r, set_threadHandle self t).

(** [def codeToRunInThread(self): pass] *)
Definition codeToRunInThread : Method unit := ret tt.

(** [def __init__(self, solver, puzzleBoard)] *)
Definition __init__ (solver : Solver) (puzzleBoard : PuzzleBoard) : WorkThread :=
  {| solver := solver;
     pb := puzzleBoard;
     __threadHandle := Threading.Thread_new "codeToRunInThread" [] true;
     showResultsEvent := Threading.clear Threading.Event_new;
     resumeEvent := Threading.clear Threading.Event_new;
     cancelEvent := Threading.clear Threading.Event_new |}.

(** [def cancelWorkThread(self): self.cancelEvent.set()] *)
Definition cancelWorkThread : Method unit :=
  fun self => (inr tt, set_cancelEvent self (Threading.set (cancelEvent self))).

(** [def start(self): self.__threadHandle.start()] *)
Definition start : Method unit := on_threadHandle Threading.start.

(** [def isAlive(self): return((self.__threadHandle.is_alive()))] *)
Definition isAlive : Method bool :=
  on_threadHandle (fun t => (inr (Threading.is_alive t), t)).

(** [def supportsCancelRequest(self): return(False)] *)
Definition supportsCancelRequest : Method bool := ret false.

(** [def timerHandler(self, parentWindow): return(False)] *)
Definition timerHandler (parentWindow : ParentWindow) : Method bool := ret false.

(** [cls(solver, puzzleBoard)] for a class that inherits [__init__]:
    [object.__new__] first, then [__init__] on the new object. *)
Definition construct (cls : Abc.Class) (solver : Solver) (puzzleBoard : PuzzleBoard)
  : Result WorkThread :=
  match Abc.new cls with
  | inl e => inl e
  | inr _ => inr (__init__ solver puzzleBoard)
  end.

(** What the started thread does: it looks its target up in the class of
    the instance, runs it, and stops, whether the target returned or
    raised.  The result is that of the target; [None] when the thread is
    not running or the target is not a function of [WorkThread] (the body
    of an overriding function is not part of this class). *)
Definition thread_main (cls : Abc.Class) (self : WorkThread)
  : option (Result unit * WorkThread) :=
  if Threading.is_alive (__threadHandle self) then
    match Abc.lookup (Threading.target (__threadHandle self)) cls with
    | Some (owner, f) =>
        if (String.eqb owner "WorkThread"
            && String.eqb (Abc.name f) "codeToRunInThread")%bool
        then
          let (r, self') := codeToRunInThread self in
          Some (r, set_threadHandle self' (Threading.finish (__threadHandle self')))
        else None
    | None => None
    end
  else None.

(** *** The calls of the UI thread and the steps of the work thread *)

(** The methods a caller can invoke on an instance. *)
Inductive Call : Type :=
| CancelWorkThread
| Start
| IsAlive
| SupportsCancelRequest
| TimerHandler (parentWindow : ParentWindow)
| CodeToRunInThread.

Definition returning {A} (v : A -> Value) (m : Method A) : Method Value :=
  bind m (fun a => ret (v a)).

Definition call (c : Call) : Method Value :=
  match c with
  | CancelWorkThread => returning (fun _ => PyNone) cancelWorkThread
  | Start => returning (fun _ => PyNone) start
  | IsAlive => returning PyBool isAlive
  | SupportsCancelRequest => returning PyBool supportsCancelRequest
  | TimerHandler w => returning PyBool (timerHandler w)
  | CodeToRunInThread => returning (fun _ => PyNone) codeToRunInThread
  end.

Inductive Signal : Type := ShowResults | Resume | Cancel.

Definition update_signal (f : Threading.Event -> Threading.Event)
  (s : Signal) (self : WorkThread) : WorkThread :=
  match s with
  | ShowResults => set_showResultsEvent self (f (showResultsEvent self))
  | Resume => set_resumeEvent self (f (resumeEvent self))
  | Cancel => set_cancelEvent self (f (cancelEvent self))
  end.

(** One step of the system made of the instance, the UI thread and the
    work thread.  The UI thread calls methods.  The work thread, while it
    runs, executes the work body, of which this class sees what it does to
    the three events, and that it ends. *)
Inductive Label : Type :=
| Ui (c : Call)
| BodySets (s : Signal)
| BodyClears (s : Signal)
| BodyReturns.

Definition while_alive (self : WorkThread) (self' : WorkThread)
  : option (Result Value * WorkThread) :=
  if Threading.is_alive (__threadHandle self)
  then Some (inr PyNone, self') else None.

(** [exec l self] is [None] when the step is not possible in [self]: the
    work thread takes no step before it is started or after it stopped. *)
Definition exec (l : Label) (self : WorkThread)
  : option (Result Value * WorkThread) :=
  match l with
  | Ui c => Some (call c self)
  | BodySets s => while_alive self (update_signal Threading.set s self)
  | BodyClears s => while_alive self (update_signal Threading.clear s self)
  | BodyReturns =>
      while_alive self
        (set_threadHandle self (Threading.finish (__threadHandle self)))
  end.

Fixpoint run (tr : list Label) (self : WorkThread) : option WorkThread :=
  match tr with
  | [] => Some self
  | l :: tr' =>
      match exec l self with
      | Some (_, self') => run tr' self'
      | None => None
      end
  end.

Definition is_start (l : Label) : bool :=
  match l with Ui Start => true | _ => false end.

Definition is_return (l : Label) : bool :=
  match l with BodyReturns => true | _ => false end.

Definition clears_cancel (l : Label) : bool :=
  match l with BodyClears Cancel => true | _ => false end.

(** The number of threads spawned along a trace: the calls of [start]
    that returned. *)
Fixpoint spawns (tr : list Label) (self : WorkThread) : nat :=
  match tr with
  | [] => 0
  | l :: tr' =>
      match exec l self with
      | Some (r, self') =>
          (if is_start l && negb (raised r) then 1 else 0) + spawns tr' self'
      | None => 0
      end
  end.

(** The parts of an instance no step touches: the two references and the
    target, the arguments and the daemon flag of the thread handle. *)
Definition fixed_part (self : WorkThread)
  : Solver * PuzzleBoard * (string * list unit * bool) :=
  (solver self, pb self,
   (Threading.target (__threadHandle self),
    Threading.args (__threadHandle self),
    Threading.daemon (__threadHandle self))).

(** The state of the thread after a trace, from the state it was in
    before: it is started by the first call of [start] and stopped by the
    return of the work body. *)
Definition state_after (st : Threading.ThreadState) (tr : list Label)
  : Threading.ThreadState :=
  match st with
  | Threading.Initial =>
      if existsb is_start tr
      then if existsb is_return tr then Threading.Stopped else Threading.Started
      else Threading.Initial
  | Threading.Started =>
      if existsb is_return tr then Threading.Stopped else Threading.Started
  | Threading.Stopped => Threading.Stopped
  end.

End Instance.

Arguments CancelWorkThread {ParentWindow}.
Arguments Start {ParentWindow}.
Arguments IsAlive {ParentWindow}.
Arguments SupportsCancelRequest {ParentWindow}.
Arguments CodeToRunInThread {ParentWindow}.
Arguments BodySets {ParentWindow}.
Arguments BodyClears {ParentWindow}.
Arguments BodyReturns {ParentWindow}.
Arguments is_start {ParentWindow} l.
Arguments is_return {ParentWindow} l.
Arguments clears_cancel {ParentWindow} l.

(** ** The pause point of a concrete work body *)

Section PausedWorker.

Variables Solver PuzzleBoard ParentWindow : Type.

(** Modelled from the spec: the states of a task, [Created -> Running ->
    (Paused <-> Running)* -> (Completed | Cancelled)].  The work bodies of
    the concrete work threads, which set [showResultsEvent] and wait on
    [resumeEvent], are not in WorkThread.py. *)
Inductive Phase : Type := Created | Running | Paused | Completed | Cancelled.

(** Modelled from the spec: [Completed] and [Cancelled] are the terminal
    states. *)
Definition terminal (p : Phase) : bool :=
  match p with
  | Completed | Cancelled => true
  | Created | Running | Paused => false
  end.

(** An instance together with where its work body is. *)
Record Task : Type := mkTask {
  task : WorkThread Solver PuzzleBoard;
  phase : Phase
}.

(** A call of the UI thread on the instance of a task; the call is the one
    of the class and leaves the work body where it is. *)
Definition ui (c : Call ParentWindow) (t : Task) : Task :=
  mkTask (snd (call c (task t))) (phase t).

(** Modelled from the spec: the work body leaves by returning, which stops
    the thread. *)
Definition leave (t : Task) (p : Phase) : Task :=
  mkTask (set_threadHandle (task t) (Threading.finish (__threadHandle (task t)))) p.

(** Modelled from the spec: the work body pauses by setting
    [showResultsEvent]. *)
Definition pause (t : Task) : Task :=
  match phase t with
  | Running =>
      mkTask (set_showResultsEvent (task t)
                (Threading.set (showResultsEvent (task t)))) Paused
  | _ => t
  end.

(** Modelled from the spec: one cycle of the wait of a paused work body,
    "a wait that also wakes on cancelSignal (e.g., a short-timeout poll
    loop or a compound wait)".  When the cycle ends the body exits if
    [cancelEvent] is set; it clears [resumeEvent] and goes on if that one
    is set; it waits another cycle otherwise. *)
Definition wait_cycle (t : Task) : Task :=
  match phase t with
  | Paused =>
      if Threading.is_set (cancelEvent (task t)) then leave t Cancelled
      else if Threading.is_set (resumeEvent (task t)) then
        mkTask (set_resumeEvent (task t)
                  (Threading.clear (resumeEvent (task t)))) Running
      else t
  | _ => t
  end.

End PausedWorker.

(** ** Kinds of steps *)

Section Steps.

Variable ParentWindow : Type.

(** The calls of the methods whose bodies only return a value:
    [isAlive], [supportsCancelRequest], [timerHandler] and
    [codeToRunInThread]. *)
Definition is_query (l : Label ParentWindow) : bool :=
  match l with
  | Ui IsAlive | Ui SupportsCancelRequest | Ui (TimerHandler _)
  | Ui CodeToRunInThread => true
  | _ => false
  end.

Definition is_cancel (l : Label ParentWindow) : bool :=
  match l with Ui CancelWorkThread => true | _ => false end.

Definition Signal_eqb (s s' : Signal) : bool :=
  match s, s' with
  | ShowResults, ShowResults | Resume, Resume | Cancel, Cancel => true
  | _, _ => false
  end.

(** The work body sets or clears the event [s]. *)
Definition body_touches (s : Signal) (l : Label ParentWindow) : bool :=
  match l with
  | BodySets s' | BodyClears s' => Signal_eqb s s'
  | _ => false
  end.

End Steps.

Arguments is_query {ParentWindow} l.
Arguments is_cancel {ParentWindow} l.
Arguments body_touches {ParentWindow} s l.

(** ** Sample runs *)

(** A new instance; the two numbers stand for the references to a solver
    and to a puzzle board. *)
Definition sample : WorkThread nat nat := __init__ 3 7.

(** The UI thread starts the thread and polls it; the work body pauses to
    show its results, is resumed, and returns; the UI thread polls again
    and calls [start] a second time. *)
Definition sample_trace : list (Label unit) :=
  [ Ui IsAlive; Ui Start; Ui (TimerHandler tt); BodySets ShowResults;
    Ui SupportsCancelRequest; BodyClears ShowResults; BodySets Resume;
    BodyClears Resume; BodyReturns; Ui IsAlive; Ui Start ].

(** The instance at the end of [sample_trace]: the thread has stopped and
    the events are unset again. *)
Definition sample_stopped : WorkThread nat nat :=
  set_threadHandle sample (Threading.finish (__threadHandle sample)).

(** The beginning of [sample_trace], up to the pause of the work body. *)
Definition sample_trace_running : list (Label unit) :=
  [ Ui IsAlive; Ui Start; Ui (TimerHandler tt); BodySets ShowResults ].

(** The UI thread starts the thread, polls it, cancels it and polls
    again after the work body has returned; the work body never touches
    an event. *)
Definition sample_trace_polling : list (Label unit) :=
  [ Ui Start; Ui (TimerHandler tt); Ui IsAlive; Ui CancelWorkThread;
    BodyReturns; Ui (TimerHandler tt); Ui IsAlive ].

(** Calls made before the thread is started. *)
Definition sample_trace_before_start : list (Label unit) :=
  [ Ui IsAlive; Ui (TimerHandler tt); Ui CancelWorkThread;
    Ui SupportsCancelRequest; Ui CodeToRunInThread ].

(** A task whose work body has paused to show its results. *)
Definition sample_paused : Task nat nat :=
  pause (mkTask (snd (start sample)) Running).

(** * Properties *)

Section Properties.

Variables Solver PuzzleBoard ParentWindow : Type.

Abbreviation Self := (WorkThread Solver PuzzleBoard).
Abbreviation Trace := (list (Label ParentWindow)).

(** Splits an instance, its handle and the state of the handle. *)
Ltac open_self self :=
  let st := fresh "st" in
  destruct self as [? ? [? ? ? st] [?] [?] [?]]; destruct st.

(** Case analysis on one step [E : exec l self = Some (r, self')]. *)
Ltac step_cases l self E :=
  destruct l as [[]|[]|[]|]; open_self self; cbn in E;
  inversion E; subst; clear E; cbn in *.

(** ** Writing an attribute back *)

Lemma set_threadHandle_same (self : Self) :
  set_threadHandle self (__threadHandle self) = self.
Proof. destruct self; reflexivity. Qed.

(** ** What one step keeps *)

Lemma exec_fixed_part (l : Label ParentWindow) (self self' : Self) r :
  exec l self = Some (r, self') -> fixed_part self' = fixed_part self.
Proof. intros E. step_cases l self E; reflexivity. Qed.

Lemma run_fixed_part (tr : Trace) : forall self self' : Self,
  run tr self = Some self' -> fixed_part self' = fixed_part self.
Proof.
  induction tr as [|l tr IH]; cbn; intros self self' H.
  - now inversion H.
  - destruct (exec l self) as [[r s1]|] eqn:E; [|discriminate].
    rewrite (IH _ _ H). exact (exec_fixed_part _ _ E).
Qed.

(** A step sets or keeps [cancelEvent], unless it is the work body
    clearing it. *)
Lemma exec_cancelEvent (l : Label ParentWindow) (self self' : Self) r :
  clears_cancel l = false ->
  exec l self = Some (r, self') ->
  Threading.is_set (cancelEvent self) = true ->
  Threading.is_set (cancelEvent self') = true.
Proof.
  intros Hc E. step_cases l self E; try discriminate; auto.
Qed.

Lemma run_cancelEvent (tr : Trace) : forall self self' : Self,
  existsb clears_cancel tr = false ->
  run tr self = Some self' ->
  Threading.is_set (cancelEvent self) = true ->
  Threading.is_set (cancelEvent self') = true.
Proof.
  induction tr as [|l tr IH]; cbn [run existsb]; intros self self' Hc H Hs.
  - now inversion H; subst.
  - apply orb_false_iff in Hc as [Hl Hc].
    destruct (exec l self) as [[r s1]|] eqn:E; [|discriminate].
    exact (IH _ _ Hc H (exec_cancelEvent _ _ Hl E Hs)).
Qed.

(** Setting an event that is set changes nothing. *)
Lemma cancelWorkThread_when_set (self : Self) :
  Threading.is_set (cancelEvent self) = true ->
  cancelWorkThread self = (inr tt, self).
Proof.
  destruct self as [? ? ? ? ? [f]]; cbn; intros ->; reflexivity.
Qed.

(** ** The state of the thread along a trace *)

Lemma run_state (tr : Trace) : forall self self' : Self,
  run tr self = Some self' ->
  Threading.state (__threadHandle self')
  = state_after (Threading.state (__threadHandle self)) tr.
Proof.
  induction tr as [|l tr IH]; intros self self' H.
  - cbn in H. inversion H; subst. open_self self'; reflexivity.
  - cbn [run] in H.
    destruct (exec l self) as [[r s1]|] eqn:E; [|discriminate].
    rewrite (IH _ _ H). clear IH H.
    step_cases l self E; try reflexivity; try discriminate.
Qed.

(** From a new instance. *)
Lemma run_state_init (s : Solver) (b : PuzzleBoard) (tr : Trace) (self : Self) :
  run tr (__init__ s b) = Some self ->
  Threading.state (__threadHandle self) = state_after Threading.Initial tr.
Proof. intros H. exact (run_state _ _ H). Qed.

(** The calls of [start] that return are the first one, if any. *)
Lemma spawns_exact (tr : Trace) : forall self self' : Self,
  run tr self = Some self' ->
  spawns tr self =
  match Threading.state (__threadHandle self) with
  | Threading.Initial => if existsb is_start tr then 1 else 0
  | _ => 0
  end.
Proof.
  induction tr as [|l tr IH]; intros self self' H; cbn [spawns run] in *.
  - now destruct (Threading.state _).
  - destruct (exec l self) as [[r s1]|] eqn:E; [|discriminate].
    rewrite (IH _ _ H). clear IH H.
    step_cases l self E; try reflexivity; try discriminate.
Qed.

(** ** The signals *)

(** C1. The cancel signal is monotonic.  After [cancelWorkThread] has been
    called, [cancelEvent] is set after every sequence of steps in which
    the methods of the class are called in any order and with any
    arguments, and the work thread runs and ends; the only step left out
    is a work body (code of a subclass) clearing the event itself.
    Calling [cancelWorkThread] again then returns and leaves the instance
    exactly as it was, so no reader can tell the second call. *)
Theorem cancelEvent_monotonic (tr : Trace) (self self' : Self) :
  existsb clears_cancel tr = false ->
  run tr (snd (cancelWorkThread self)) = Some self' ->
  Threading.is_set (cancelEvent self') = true
  /\ cancelWorkThread self' = (inr tt, self').
Proof.
  intros Hc H.
  assert (Hs : Threading.is_set (cancelEvent self') = true).
  { apply (run_cancelEvent _ _ Hc H). reflexivity. }
  split; [exact Hs | exact (cancelWorkThread_when_set _ Hs)].
Qed.

(** C5. [cancelWorkThread] only sets [cancelEvent].  The call returns
    without raising; afterwards [cancelEvent] is set, and the solver, the
    puzzle board, the thread handle, [showResultsEvent] and [resumeEvent]
    are what they were.  The thread handle being untouched, the call has
    not waited for the thread: a thread that was alive still is. *)
Theorem cancelWorkThread_only_sets_cancelEvent (self : Self) :
  fst (cancelWorkThread self) = inr tt
  /\ Threading.is_set (cancelEvent (snd (cancelWorkThread self))) = true
  /\ solver (snd (cancelWorkThread self)) = solver self
  /\ pb (snd (cancelWorkThread self)) = pb self
  /\ __threadHandle (snd (cancelWorkThread self)) = __threadHandle self
  /\ showResultsEvent (snd (cancelWorkThread self)) = showResultsEvent self
  /\ resumeEvent (snd (cancelWorkThread self)) = resumeEvent self
  /\ fst (isAlive (snd (cancelWorkThread self))) = fst (isAlive self).
Proof. repeat split. Qed.

(** A paused work body whose two events are unset waits on. *)
Lemma wait_cycle_keeps_waiting (t : Task Solver PuzzleBoard) :
  phase t = Paused ->
  Threading.is_set (cancelEvent (task t)) = false ->
  Threading.is_set (resumeEvent (task t)) = false ->
  wait_cycle t = t.
Proof.
  unfold wait_cycle. intros -> -> ->. reflexivity.
Qed.

(** C2. Cancelling a paused worker.  When the work body is paused and the
    UI thread calls [cancelWorkThread], the call leaves [resumeEvent] as it
    was and the work body paused, and sets [cancelEvent]; the wait cycle
    of the work body that follows ends in the terminal state [Cancelled]
    with the thread no longer alive, whether [resumeEvent] is set or
    not. *)
Theorem cancel_ends_paused_worker (t : Task Solver PuzzleBoard) :
  phase t = Paused ->
  resumeEvent (task (ui (@CancelWorkThread ParentWindow) t)) = resumeEvent (task t)
  /\ Threading.is_set (cancelEvent (task (ui (@CancelWorkThread ParentWindow) t))) = true
  /\ phase (ui (@CancelWorkThread ParentWindow) t) = Paused
  /\ phase (wait_cycle (ui (@CancelWorkThread ParentWindow) t)) = Cancelled
  /\ terminal (phase (wait_cycle (ui (@CancelWorkThread ParentWindow) t))) = true
  /\ isAlive (task (wait_cycle (ui (@CancelWorkThread ParentWindow) t)))
     = (inr false, task (wait_cycle (ui (@CancelWorkThread ParentWindow) t))).
Proof.
  destruct t as [self p]; cbn. intros ->.
  unfold wait_cycle; cbn. repeat split.
Qed.

(** ** The defaults *)

(** C6. The default [supportsCancelRequest] returns False, for every
    instance and in every state of it, and changes nothing. *)
Theorem supportsCancelRequest_default (self : Self) :
  supportsCancelRequest self = (inr false, self).
Proof. reflexivity. Qed.

(** C7. The default [timerHandler] returns False for every parent window
    and every state of the instance, and leaves the instance, with its
    three events, its two references and its thread handle, as it was. *)
Theorem timerHandler_default (parentWindow : ParentWindow) (self : Self) :
  timerHandler parentWindow self = (inr false, self).
Proof. reflexivity. Qed.

(** ** Construction *)

(** C3. Construction.  For every solver and puzzle board, [__init__]
    stores the two references, leaves the three events unset, and creates
    the thread handle with [codeToRunInThread] as its target without
    starting it: the thread is not alive, and it stays in its initial
    state along every sequence of steps in which [start] is not
    called. *)
Theorem init_unset_and_not_started (s : Solver) (b : PuzzleBoard) :
  solver (__init__ s b) = s
  /\ pb (__init__ s b) = b
  /\ Threading.is_set (showResultsEvent (__init__ s b)) = false
  /\ Threading.is_set (resumeEvent (__init__ s b)) = false
  /\ Threading.is_set (cancelEvent (__init__ s b)) = false
  /\ Threading.target (__threadHandle (__init__ s b)) = "codeToRunInThread"%string
  /\ Threading.state (__threadHandle (__init__ s b)) = Threading.Initial
  /\ Threading.is_alive (__threadHandle (__init__ s b)) = false
  /\ (forall (tr : Trace) (self : Self),
        existsb is_start tr = false ->
        run tr (__init__ s b) = Some self ->
        Threading.state (__threadHandle self) = Threading.Initial
        /\ Threading.is_alive (__threadHandle self) = false).
Proof.
  repeat (split; [reflexivity|]).
  intros tr self Hs H. apply run_state_init in H.
  unfold Threading.is_alive. rewrite H. cbn. rewrite Hs. now split.
Qed.

(** C10. The thread is a daemon.  The thread handle is created with the
    daemon flag set, the flag is set after every sequence of steps, and so
    the thread never keeps the process from exiting, running or not. *)
Theorem threadHandle_is_daemon
  (s : Solver) (b : PuzzleBoard) (tr : Trace) (self : Self) :
  run tr (__init__ s b) = Some self ->
  Threading.daemon (__threadHandle (__init__ s b)) = true
  /\ Threading.daemon (__threadHandle self) = true
  /\ Threading.blocks_exit (__threadHandle self) = false.
Proof.
  intros H. apply run_fixed_part in H. unfold fixed_part in H; cbn in H.
  assert (Hd : Threading.daemon (__threadHandle self) = true) by congruence.
  repeat split; [exact Hd|].
  unfold Threading.blocks_exit. rewrite Hd. apply andb_false_r.
Qed.

(** ** The life of the thread *)

(** C4. [isAlive] follows the thread.  At every point of every sequence of
    steps of a new instance, [isAlive] returns at once, changes nothing,
    and answers true exactly when [start] has been called and the work
    body has not returned yet: false before [start], true from the return
    of [start], false again once the work body has returned. *)
Theorem isAlive_follows_thread
  (s : Solver) (b : PuzzleBoard) (tr : Trace) (self : Self) :
  run tr (__init__ s b) = Some self ->
  isAlive self
  = (inr (existsb is_start tr && negb (existsb is_return tr)), self).
Proof.
  intros H. apply run_state_init in H.
  unfold isAlive, on_threadHandle, Threading.is_alive.
  rewrite H, set_threadHandle_same. cbn.
  now destruct (existsb is_start tr), (existsb is_return tr).
Qed.

(** C9. One thread per instance.  [start] does nothing but call [start] on
    the thread handle, so its outcome is the handle's.  On a new instance
    it returns when it has not been called before; once it has been
    called, another call raises RuntimeError and leaves the instance as it
    was.  Along every sequence of steps exactly one call of [start]
    returns, the first, and the thread handle keeps its target, arguments
    and daemon flag: no other thread is created or put in its place. *)
Theorem start_spawns_at_most_once
  (s : Solver) (b : PuzzleBoard) (tr : Trace) (self : Self) :
  run tr (__init__ s b) = Some self ->
  fst (start self) = fst (Threading.start (__threadHandle self))
  /\ (existsb is_start tr = false -> fst (start self) = inr tt)
  /\ (existsb is_start tr = true ->
      start self = (inl (RuntimeError "threads can only be started once"), self))
  /\ spawns tr (__init__ s b) = (if existsb is_start tr then 1 else 0)
  /\ fixed_part self = fixed_part (__init__ s b).
Proof.
  intros H. pose proof (run_state_init _ _ _ H) as Hst. cbn in Hst.
  split; [|split; [|split; [|split]]].
  - unfold start, on_threadHandle. now destruct (Threading.start _).
  - intros Hs. rewrite Hs in Hst.
    unfold start, on_threadHandle, Threading.start. now rewrite Hst.
  - intros Hs. rewrite Hs in Hst.
    unfold start, on_threadHandle, Threading.start. rewrite Hst.
    destruct (existsb is_return tr); now rewrite set_threadHandle_same.
  - exact (spawns_exact _ _ H).
  - exact (run_fixed_part _ _ H).
Qed.

(** ** The abstract work body *)

(** The same class body under [metaclass=abc.ABCMeta] cannot be
    instantiated, nor can a subclass of it that defines nothing; one that
    defines [codeToRunInThread] can. *)
Remark abstractmethod_needs_ABCMeta (name : string) :
  Abc.new [Abc.mkClassBody "WorkThread" (Some Abc.ABCMeta)
             (Abc.namespace WorkThread_body)]
  = inl (TypeError "Can't instantiate abstract class")
  /\ Abc.new [Abc.mkClassBody name None [];
              Abc.mkClassBody "WorkThread" (Some Abc.ABCMeta)
                (Abc.namespace WorkThread_body)]
     = inl (TypeError "Can't instantiate abstract class")
  /\ Abc.new [Abc.mkClassBody name None
                [Abc.mkFunction "codeToRunInThread" false];
              Abc.mkClassBody "WorkThread" (Some Abc.ABCMeta)
                (Abc.namespace WorkThread_body)]
     = inr tt.
Proof. repeat split. Qed.

(** C8, on the code.  [codeToRunInThread] is marked abstract, but
    [WorkThread] is created by [type], which computes no
    [__abstractmethods__].  So [WorkThread] itself, and a class that
    derives from it and defines nothing, are instantiated without an
    error; [start] returns; and the thread runs the inherited body, which
    does nothing, and stops with no exception raised and the three events
    as they were. *)
Theorem unoverridden_work_body_runs_silently
  (name : string) (s : Solver) (b : PuzzleBoard) :
  Abc.still_abstract (subclass name []) "codeToRunInThread" = true
  /\ Abc.abstractmethods (subclass name []) = []
  /\ construct (subclass name []) s b = inr (__init__ s b)
  /\ construct WorkThread_class s b = inr (__init__ s b)
  /\ fst (start (__init__ s b)) = inr tt
  /\ thread_main (subclass name []) (snd (start (__init__ s b)))
     = Some (inr tt,
             set_threadHandle (__init__ s b)
               (Threading.finish (__threadHandle (__init__ s b)))).
Proof. repeat split. Qed.

End Properties.

(** * How the methods compose *)

Section Composition.

Variables Solver PuzzleBoard ParentWindow : Type.

Abbreviation Inst := (WorkThread Solver PuzzleBoard).
Abbreviation Steps := (list (Label ParentWindow)).

(** Case analysis on the step [l] taken from [self]. *)
Ltac by_step l self :=
  let st := fresh "st" in
  destruct l as [[]|[]|[]|];
  destruct self as [? ? [? ? ? st] [?] [?] [?]]; destruct st;
  cbn in *; try reflexivity; try discriminate.

(** The instance after a call of [cancelWorkThread]. *)
Abbreviation cancelled self := (snd (cancelWorkThread self)).

Lemma exec_cancelled (l : Label ParentWindow) (self : Inst) :
  clears_cancel l = false ->
  exec l (cancelled self)
  = match exec l self with
    | Some (r, self') => Some (r, cancelled self')
    | None => None
    end.
Proof. intros Hc. by_step l self. Qed.

(** X1. A cancel request can be made at any time and is never read by the
    class.  Calling [cancelWorkThread] before a sequence of steps (in
    which no work body clears the event) gives the same outcome as calling
    it afterwards: the same steps are possible, they lead to the same
    instance, and the same number of threads is spawned.  In particular a
    cancelled instance can still be started. *)
Theorem cancelWorkThread_commutes (tr : Steps) : forall self : Inst,
  existsb clears_cancel tr = false ->
  run tr (cancelled self)
  = option_map (fun self' => cancelled self') (run tr self)
  /\ spawns tr (cancelled self) = spawns tr self.
Proof.
  induction tr as [|l tr IH]; intros self Hc; cbn [run spawns existsb] in *.
  - split; reflexivity.
  - apply orb_false_iff in Hc as [Hl Hc].
    rewrite (exec_cancelled _ self Hl).
    destruct (exec l self) as [[r s1]|]; [|split; reflexivity].
    destruct (IH s1 Hc) as [-> ->]. split; reflexivity.
Qed.

Lemma exec_is_set_cancelEvent (l : Label ParentWindow) (self self' : Inst) r :
  body_touches Cancel l = false ->
  exec l self = Some (r, self') ->
  Threading.is_set (cancelEvent self')
  = (Threading.is_set (cancelEvent self) || is_cancel l)%bool.
Proof.
  intros Hb E. by_step l self; inversion E; subst; cbn;
    rewrite ?orb_false_r, ?orb_true_r; reflexivity.
Qed.

(** X2. [cancelEvent] tells exactly whether cancellation was requested.
    Along every sequence of steps of a new instance in which the work body
    leaves [cancelEvent] alone, the event is set if and only if
    [cancelWorkThread] has been called: no other method sets it. *)
Theorem cancelEvent_iff_cancel_called
  (s : Solver) (b : PuzzleBoard) (tr : Steps) (self : Inst) :
  existsb (body_touches Cancel) tr = false ->
  run tr (__init__ s b) = Some self ->
  Threading.is_set (cancelEvent self) = existsb is_cancel tr.
Proof.
  intros Hb H.
  change (existsb is_cancel tr)
    with (Threading.is_set (cancelEvent (__init__ s b)) || existsb is_cancel tr)%bool.
  revert Hb H. generalize (__init__ s b). 
  induction tr as [|l tr IH]; intros self0 Hb H; cbn [run existsb] in *.
  - inversion H; subst. now rewrite orb_false_r.
  - apply orb_false_iff in Hb as [Hl Hb].
    destruct (exec l self0) as [[r s1]|] eqn:E; [|discriminate].
    rewrite (IH s1 Hb H), (exec_is_set_cancelEvent _ _ Hl E).
    now rewrite orb_assoc.
Qed.

Lemma exec_show_resume (l : Label ParentWindow) (self self' : Inst) r :
  body_touches ShowResults l = false ->
  body_touches Resume l = false ->
  exec l self = Some (r, self') ->
  showResultsEvent self' = showResultsEvent self
  /\ resumeEvent self' = resumeEvent self.
Proof.
  intros Hs Hr E. by_step l self; inversion E; subst; split; reflexivity.
Qed.

(** X3. The class never touches [showResultsEvent] or [resumeEvent] after
    construction.  Along every sequence of steps in which the work body
    neither sets nor clears them, whatever methods are called, both events
    are what they were; from a new instance both are unset.  The default
    [timerHandler] in particular never releases a paused work body. *)
Theorem showResults_resume_left_to_subclasses (tr : Steps) :
  forall self self' : Inst,
  existsb (body_touches ShowResults) tr = false ->
  existsb (body_touches Resume) tr = false ->
  run tr self = Some self' ->
  showResultsEvent self' = showResultsEvent self
  /\ resumeEvent self' = resumeEvent self.
Proof.
  induction tr as [|l tr IH]; intros self self' Hs Hr H; cbn [run existsb] in *.
  - inversion H; subst. split; reflexivity.
  - apply orb_false_iff in Hs as [Hs1 Hs]. apply orb_false_iff in Hr as [Hr1 Hr].
    destruct (exec l self) as [[r s1]|] eqn:E; [|discriminate].
    destruct (IH _ _ Hs Hr H) as [-> ->].
    exact (exec_show_resume _ _ Hs1 Hr1 E).
Qed.

(** X4. Only [start] can raise.  In every state of an instance a call
    raises exactly when it is a call of [start] on an instance whose
    thread has left its initial state; the exception is RuntimeError and
    the instance is left as it was.  Every other call returns. *)
Theorem only_start_raises (c : Call ParentWindow) (self : Inst) :
  (raised (fst (call c self)) = true
   <-> c = Start
       /\ Threading.state (__threadHandle self) <> Threading.Initial)
  /\ (raised (fst (call c self)) = true ->
      call c self
      = (inl (RuntimeError "threads can only be started once"), self)).
Proof.
  destruct c; destruct self as [? ? [? ? ? st] [?] [?] [?]]; destruct st;
    cbn; (split; [split|]);
    try discriminate; try reflexivity;
    try (intros [? ?]; congruence);
    try (intros _; split; [reflexivity | discriminate]).
Qed.

Lemma exec_query (l : Label ParentWindow) (self : Inst) :
  is_query l = true ->
  exists r, exec l self = Some (inr r, self).
Proof.
  intros Hq. destruct l as [[]|[]|[]|]; try discriminate;
    destruct self as [? ? [? ? ? st] ? ? ?]; cbn; eexists; reflexivity.
Qed.

(** X5. Polling does not disturb.  Calls of [isAlive],
    [supportsCancelRequest], [timerHandler] and [codeToRunInThread] return
    without raising and can be added to or removed from any sequence of
    steps: the same steps remain possible, the final instance is the same
    and so is the number of threads spawned. *)
Theorem queries_are_transparent (tr : Steps) : forall self : Inst,
  run (filter (fun l => negb (is_query l)) tr) self = run tr self
  /\ spawns (filter (fun l => negb (is_query l)) tr) self = spawns tr self.
Proof.
  induction tr as [|l tr IH]; intros self; cbn [filter].
  - split; reflexivity.
  - destruct (is_query l) eqn:Hq; cbn [negb run spawns].
    + destruct (exec_query _ self Hq) as [r ->].
      destruct (IH self) as [-> ->].
      split; [reflexivity|].
      destruct l as [[]| | |]; try discriminate; reflexivity.
    + destruct (exec l self) as [[r s1]|]; [|split; reflexivity].
      destruct (IH s1) as [-> ->]. split; reflexivity.
Qed.

(** X6. Completion is final.  Once [start] has been called on a new
    instance and the thread is found not alive, it is not alive after any
    further sequence of steps: no call, a further [start] included, makes
    [isAlive] answer true again. *)
Theorem finished_thread_stays_finished
  (s : Solver) (b : PuzzleBoard) (tr tr' : Steps) (self self' : Inst) :
  run tr (__init__ s b) = Some self ->
  existsb is_start tr = true ->
  fst (isAlive self) = inr false ->
  run tr' self = Some self' ->
  fst (isAlive self') = inr false.
Proof.
  intros H Hs Ha H'.
  apply run_state in H. apply run_state in H'. cbn in H. rewrite Hs in H.
  revert Ha. unfold isAlive, on_threadHandle, Threading.is_alive.
  rewrite H', H. cbn.
  destruct (existsb is_return tr); cbn; [reflexivity|discriminate].
Qed.

End Composition.

(** * The properties on the sample runs *)

Lemma cancelEvent_monotonic_witness :
  existsb clears_cancel sample_trace = false
  /\ run sample_trace (snd (cancelWorkThread sample))
     = Some (snd (cancelWorkThread sample_stopped))
  /\ Threading.is_set (cancelEvent (snd (cancelWorkThread sample_stopped))) = true
  /\ cancelWorkThread (snd (cancelWorkThread sample_stopped))
     = (inr tt, snd (cancelWorkThread sample_stopped)).
Proof.
  split; [reflexivity|]. split; [reflexivity|].
  apply (cancelEvent_monotonic sample_trace sample); reflexivity.
Defined.

Lemma cancel_ends_paused_worker_witness :
  phase sample_paused = Paused
  /\ phase (wait_cycle (ui (@CancelWorkThread unit) sample_paused)) = Cancelled
  /\ phase (wait_cycle sample_paused) = Paused.
Proof.
  split; [reflexivity|]. split; [|reflexivity].
  apply (cancel_ends_paused_worker unit sample_paused). reflexivity.
Defined.

Lemma init_unset_and_not_started_witness :
  existsb is_start sample_trace_before_start = false
  /\ run sample_trace_before_start sample = Some (snd (cancelWorkThread sample))
  /\ Threading.state (__threadHandle (snd (cancelWorkThread sample)))
     = Threading.Initial
  /\ Threading.is_alive (__threadHandle (snd (cancelWorkThread sample))) = false.
Proof.
  split; [reflexivity|]. split; [reflexivity|].
  apply (init_unset_and_not_started unit 3 7) with (tr := sample_trace_before_start);
    reflexivity.
Defined.

Lemma isAlive_follows_thread_witness :
  run sample_trace_running sample = Some (task sample_paused)
  /\ isAlive (task sample_paused) = (inr true, task sample_paused).
Proof.
  split; [reflexivity|].
  apply (isAlive_follows_thread 3 7 sample_trace_running). reflexivity.
Defined.

Lemma start_spawns_at_most_once_witness :
  run sample_trace sample = Some sample_stopped
  /\ start sample_stopped
     = (inl (RuntimeError "threads can only be started once"), sample_stopped)
  /\ spawns sample_trace sample = 1.
Proof.
  split; [reflexivity|].
  destruct (start_spawns_at_most_once 3 7 sample_trace (self := sample_stopped))
    as (_ & _ & Hraise & Hspawns & _); [reflexivity|].
  split; [apply Hraise; reflexivity | exact Hspawns].
Defined.

Lemma threadHandle_is_daemon_witness :
  run sample_trace_running sample = Some (task sample_paused)
  /\ Threading.is_alive (__threadHandle (task sample_paused)) = true
  /\ Threading.daemon (__threadHandle (task sample_paused)) = true
  /\ Threading.blocks_exit (__threadHandle (task sample_paused)) = false.
Proof.
  split; [reflexivity|]. split; [reflexivity|].
  apply (threadHandle_is_daemon 3 7 sample_trace_running). reflexivity.
Defined.

Lemma cancelWorkThread_commutes_witness :
  existsb clears_cancel sample_trace = false
  /\ run sample_trace sample = Some sample_stopped
  /\ run sample_trace (snd (cancelWorkThread sample))
     = Some (snd (cancelWorkThread sample_stopped))
  /\ spawns sample_trace (snd (cancelWorkThread sample)) = 1.
Proof.
  split; [reflexivity|]. split; [reflexivity|].
  exact (cancelWorkThread_commutes sample_trace sample eq_refl).
Defined.

Lemma cancelEvent_iff_cancel_called_witness :
  existsb (body_touches Cancel) sample_trace_polling = false
  /\ run sample_trace_polling sample = Some (snd (cancelWorkThread sample_stopped))
  /\ existsb is_cancel sample_trace_polling = true
  /\ Threading.is_set (cancelEvent (snd (cancelWorkThread sample_stopped))) = true.
Proof.
  split; [reflexivity|]. split; [reflexivity|]. split; [reflexivity|].
  apply (cancelEvent_iff_cancel_called 3 7 sample_trace_polling); reflexivity.
Defined.

Lemma showResults_resume_left_to_subclasses_witness :
  existsb (body_touches ShowResults) sample_trace_polling = false
  /\ existsb (body_touches Resume) sample_trace_polling = false
  /\ run sample_trace_polling (task sample_paused)
     = Some (snd (cancelWorkThread
                    (set_threadHandle (task sample_paused)
                       (Threading.finish (__threadHandle (task sample_paused))))))
  /\ Threading.is_set (showResultsEvent (task sample_paused)) = true
  /\ showResultsEvent
       (snd (cancelWorkThread
               (set_threadHandle (task sample_paused)
                  (Threading.finish (__threadHandle (task sample_paused))))))
     = showResultsEvent (task sample_paused).
Proof.
  split; [reflexivity|]. split; [reflexivity|]. split; [reflexivity|].
  split; [reflexivity|].
  apply (showResults_resume_left_to_subclasses sample_trace_polling
           (task sample_paused)); reflexivity.
Defined.

Lemma finished_thread_stays_finished_witness :
  run sample_trace sample = Some sample_stopped
  /\ run sample_trace_before_start sample_stopped
     = Some (snd (cancelWorkThread sample_stopped))
  /\ fst (isAlive (snd (cancelWorkThread sample_stopped))) = inr false.
Proof.
  split; [reflexivity|]. split; [reflexivity|].
  apply (finished_thread_stays_finished 3 7 sample_trace sample_trace_before_start
           (self := sample_stopped)); reflexivity.
Defined.
